(** * suid-wrapper: a privilege-transition launcher

    A shallow embedding of [main] of [suid-wrapper.c] and the properties of
    its control flow.  The program talks to three platform services (the
    identity database, libcap-ng and the executable loader); they are
    modelled as an oracle that answers each call, and a run of [main]
    produces an exit status (or the replacement of the process image)
    together with the ordered trace of the calls it made and of the lines
    it wrote to the standard error stream. *)

From Stdlib Require Import ZArith NArith List String Ascii Bool Lia.
From Stdlib Require Import DecimalString.
Import ListNotations.

Local Open Scope Z_scope.

(** ** Constants of the headers the source includes

    The source names these constants and includes the headers that give
    their values; the values below are those of glibc, libcap-ng and the
    Linux kernel headers. *)

(** [<stdlib.h>] *)
Definition EXIT_SUCCESS : Z := 0.
Definition EXIT_FAILURE : Z := 1.

(** [<cap-ng.h>] (libcap-ng): [capng_act_t]. *)
Inductive capng_act_t := CAPNG_DROP | CAPNG_ADD.

(** [<cap-ng.h>]: [capng_type_t], one bit per capability category. *)
Definition CAPNG_EFFECTIVE    : Z := 1.
Definition CAPNG_PERMITTED    : Z := 2.
Definition CAPNG_INHERITABLE  : Z := 4.
Definition CAPNG_BOUNDING_SET : Z := 8.
Definition CAPNG_AMBIENT      : Z := 16.

(** [<cap-ng.h>]: [capng_select_t]. *)
Definition CAPNG_SELECT_CAPS    : Z := 16.
Definition CAPNG_SELECT_BOUNDS  : Z := 32.
Definition CAPNG_SELECT_BOTH    : Z := 48.
Definition CAPNG_SELECT_AMBIENT : Z := 64.
Definition CAPNG_SELECT_ALL     : Z := 112.

(** [<cap-ng.h>]: [capng_flags_t]. *)
Definition CAPNG_NO_FLAG        : Z := 0.
Definition CAPNG_CLEAR_BOUNDING : Z := 2.
Definition CAPNG_INIT_SUPP_GRP  : Z := 4.
Definition CAPNG_CLEAR_AMBIENT  : Z := 8.

(** [<linux/capability.h>] *)
Definition CAP_SETGID : Z := 6.
Definition CAP_SETUID : Z := 7.

(** A flag word [w] has the bit(s) of [flag] set: the C test [w & flag]. *)
Definition has_flag (w flag : Z) : bool := negb (Z.land w flag =? 0).

(** The capabilities named by a variadic argument list of [capng_updatev]:
    the arguments up to the terminating [-1]. *)
Fixpoint caps_of_varargs (args : list Z) : list Z :=
  match args with
  | [] => []
  | c :: rest => if c =? -1 then [] else c :: caps_of_varargs rest
  end.

(** ** Data *)

(** The two fields of [struct passwd] that [main] reads; [uid_t] and
    [gid_t] are unsigned. *)
Record passwd := mk_passwd { pw_uid : N; pw_gid : N }.

(** What a library call does to [errno]: leave it ([None]) or store a
    value ([Some e]). *)
Definition errno_effect := option Z.

(** The value an [int] parameter receives from an argument of an
    unsigned 32-bit type such as [uid_t]: values from [2^31] on wrap to
    the negative numbers, [4294967295] to [-1]. *)
Definition int_of_unsigned (u : N) : Z :=
  let x := Z.of_N u mod 2 ^ 32 in
  if x <? 2 ^ 31 then x else x - 2 ^ 32.
Arguments int_of_unsigned : simpl never.

(** One observable action of the process: a line written to [stderr], or
    a call of a platform service with the arguments it receives and the
    result it gives ([None] for an [execvpe] that does not return).  The
    ids of [capng_change_id] are [int], as its prototype has them. *)
Inductive event :=
| Stderr (msg : string)
| Getpwnam (name : string) (res : option passwd)
| CapngClear (set : Z)
| CapngUpdatev (action : capng_act_t) (type : Z) (varargs : list Z) (ret : Z)
| CapngChangeId (uid gid : Z) (flag : Z) (ret : Z)
| Execvpe (file : string) (argv envp : list string) (res : option Z).

(** The platform services [main] consumes.  Each answers a call with its
    return value and its effect on [errno].  [pf_execvpe] answers [None]
    when the process image is replaced (the call does not return) and
    [Some (r, eff)] when the call returns [r]. *)
Record platform := mk_platform {
  pf_getpwnam : string -> option passwd * errno_effect;
  pf_capng_clear : Z -> errno_effect;
  pf_capng_updatev : capng_act_t -> Z -> list Z -> Z * errno_effect;
  pf_capng_change_id : Z -> Z -> Z -> Z * errno_effect;
  pf_execvpe : string -> list string -> list string -> option (Z * errno_effect);
  pf_strerror : Z -> string
}.

(** The state [main] threads: [errno] and the trace so far (oldest
    event first). *)
Record proc := mk_proc { errno : Z; trace : list event }.

(** ** The monad of the process: state, and the end of the program by
    replacement of its image *)

Inductive outcome (A : Type) :=
| Returned (a : A)
| Replaced.
Arguments Returned {A} a.
Arguments Replaced {A}.

Definition M (A : Type) : Type := proc -> outcome A * proc.

Definition pure {A} (a : A) : M A := fun st => (Returned a, st).

Definition bind {A B} (m : M A) (k : A -> M B) : M B :=
  fun st =>
    match m st with
    | (Returned a, st') => k a st'
    | (Replaced, st') => (Replaced, st')
    end.

Declare Scope proc_scope.
Delimit Scope proc_scope with proc.
Notation "x <- m ;; k" := (bind m (fun x => k))
  (at level 61, m at next level, right associativity) : proc_scope.
Notation "m ;; k" := (bind m (fun _ => k))
  (at level 61, right associativity) : proc_scope.
Local Open Scope proc_scope.

Definition get_errno : M Z := fun st => (Returned (errno st), st).

Definition set_errno (e : Z) : M unit :=
  fun st => (Returned tt, mk_proc e (trace st)).

Definition emit (ev : event) : M unit :=
  fun st => (Returned tt, mk_proc (errno st) (trace st ++ [ev])).

Definition affect_errno (eff : errno_effect) : M unit :=
  match eff with
  | Some e => set_errno e
  | None => pure tt
  end.

(** ** Formatting *)

(** [%d] *)
Definition fmt_d (n : Z) : string := NilZero.string_of_int (Z.to_int n).

(** [%s]; glibc renders a null pointer as [(null)]. *)
Definition fmt_s (p : option string) : string :=
  match p with
  | Some s => s
  | None => "(null)"%string
  end.

Definition newline : string := String (ascii_of_nat 10) EmptyString.

(** ** The calls *)

Section Calls.
Variable P : platform.

(** [fprintf(stderr, ...)] with the formatted text. *)
Definition fprintf_stderr (text : string) : M unit := emit (Stderr text).

(** The line [perror(s)] writes when [errno] holds [e]: [s], a colon and
    a blank, the message of [e], a newline. *)
Definition perror_text (s : string) (e : Z) : string :=
  (s ++ ": " ++ pf_strerror P e ++ newline)%string.

(** [perror(s)] *)
Definition perror (s : string) : M unit :=
  e <- get_errno ;;
  emit (Stderr (perror_text s e)).

Definition getpwnam (name : string) : M (option passwd) :=
  let '(r, eff) := pf_getpwnam P name in
  emit (Getpwnam name r) ;;
  affect_errno eff ;;
  pure r.

Definition capng_clear (set : Z) : M unit :=
  emit (CapngClear set) ;;
  affect_errno (pf_capng_clear P set).

Definition capng_updatev (action : capng_act_t) (type : Z) (varargs : list Z)
  : M Z :=
  let '(r, eff) := pf_capng_updatev P action type varargs in
  emit (CapngUpdatev action type varargs r) ;;
  affect_errno eff ;;
  pure r.

(** [int capng_change_id(int uid, int gid, capng_flags_t flag)] *)
Definition capng_change_id (uid gid : Z) (flag : Z) : M Z :=
  let '(r, eff) := pf_capng_change_id P uid gid flag in
  emit (CapngChangeId uid gid flag r) ;;
  affect_errno eff ;;
  pure r.

Definition execvpe (file : string) (argv envp : list string) : M Z :=
  match pf_execvpe P file argv envp with
  | None =>
      emit (Execvpe file argv envp None) ;;
      (fun st => (Replaced, st))
  | Some (r, eff) =>
      emit (Execvpe file argv envp (Some r)) ;;
      affect_errno eff ;;
      pure r
  end.

(** ** [main] *)

(** [argv[i]] for an index below [argc]. *)
Definition arg (argv : list string) (i : nat) : string :=
  nth i argv EmptyString.

Definition usage_msg (argv0 : option string) : string :=
  ("usage: " ++ fmt_s argv0 ++ " user cmd argv [argv]" ++ newline)%string.

Definition not_found_msg (user : string) : string :=
  ("getpwnam: can not find user " ++ user ++ newline)%string.

Definition root_msg : string :=
  ("can not run as root (uid = 0)" ++ newline)%string.

Definition updatev_msg (r : Z) : string :=
  ("capng_updatev() returns " ++ fmt_d r ++ newline)%string.

Definition change_id_msg (r : Z) : string :=
  ("capng_change_id() returns " ++ fmt_d r ++ newline)%string.

(** [main].  Every [if] of the source whose body ends in
    [return EXIT_FAILURE] is followed here by the rest of the function in
    its [else] branch.  The conversion of [uid] and [gid] to the [int]
    parameters of [capng_change_id] is written out. *)
Definition main (argv envp : list string) : M Z :=
  let argc := Z.of_nat (List.length argv) in
  if argc <=? 2 then
    fprintf_stderr (usage_msg (nth_error argv 0)) ;;
    pure EXIT_FAILURE
  else
    set_errno 0 ;;
    pwd <- getpwnam (arg argv 1) ;;
    match pwd with
    | None =>
        e <- get_errno ;;
        (if negb (e =? 0) then perror "getpanam"
         else fprintf_stderr (not_found_msg (arg argv 1))) ;;
        pure EXIT_FAILURE
    | Some pwd =>
        let uid := pw_uid pwd in
        let gid := pw_gid pwd in
        if (uid =? 0)%N then
          fprintf_stderr root_msg ;;
          pure EXIT_FAILURE
        else
          capng_clear CAPNG_SELECT_BOTH ;;
          ret <- capng_updatev CAPNG_ADD
                   (Z.lor (Z.lor (Z.lor CAPNG_EFFECTIVE CAPNG_PERMITTED)
                                 CAPNG_INHERITABLE) CAPNG_AMBIENT)
                   [CAP_SETUID; CAP_SETGID; -1] ;;
          if ret <? 0 then
            fprintf_stderr (updatev_msg ret) ;;
            pure EXIT_FAILURE
          else
            ret <- capng_change_id (int_of_unsigned uid) (int_of_unsigned gid)
                     CAPNG_INIT_SUPP_GRP ;;
            if ret <? 0 then
              fprintf_stderr (change_id_msg ret) ;;
              pure EXIT_FAILURE
            else
              set_errno 0 ;;
              r <- execvpe (arg argv 2) (skipn 2 argv) envp ;;
              if r <? 0 then
                perror "execvpe" ;;
                pure EXIT_FAILURE
              else
                pure EXIT_SUCCESS
    end.

(** A run of the program from process start, where [errno] holds [e0]. *)
Definition run (e0 : Z) (argv envp : list string) : outcome Z * proc :=
  main argv envp (mk_proc e0 []).

Definition result_of (e0 : Z) (argv envp : list string) : outcome Z :=
  fst (run e0 argv envp).

Definition trace_of (e0 : Z) (argv envp : list string) : list event :=
  trace (snd (run e0 argv envp)).
End Calls.


(** ** Reading a trace *)

(** The word of categories and the variadic list that [main] hands to
    [capng_updatev]. *)
Definition grant_types : Z :=
  Z.lor (Z.lor (Z.lor CAPNG_EFFECTIVE CAPNG_PERMITTED) CAPNG_INHERITABLE)
        CAPNG_AMBIENT.

Definition grant_varargs : list Z := [CAP_SETUID; CAP_SETGID; -1].

Definition is_stderr (ev : event) : bool :=
  match ev with Stderr _ => true | _ => false end.

Definition is_lookup (ev : event) : bool :=
  match ev with Getpwnam _ _ => true | _ => false end.

Definition is_capability_mutation (ev : event) : bool :=
  match ev with
  | CapngClear _ | CapngUpdatev _ _ _ _ => true
  | _ => false
  end.

Definition is_identity_switch (ev : event) : bool :=
  match ev with CapngChangeId _ _ _ _ => true | _ => false end.

Definition is_exec (ev : event) : bool :=
  match ev with Execvpe _ _ _ _ => true | _ => false end.

(** The value of [errno] after a call made when it held [cur]. *)
Definition errno_after (cur : Z) (eff : errno_effect) : Z :=
  match eff with
  | Some e => e
  | None => cur
  end.

(** What an [int] id handed to [capng_change_id] asks for: [-1] asks to
    leave the id of the process as it is, every other value is the id
    it converts to in the unsigned 32-bit type of the system call. *)
Definition requested_id (x : Z) : option N :=
  if x =? -1 then None else Some (Z.to_N (x mod 2 ^ 32)).

(** The part of a trace that comes before the loader is called. *)
Fixpoint until_exec (t : list event) : list event :=
  match t with
  | [] => []
  | ev :: t' => if is_exec ev then [] else ev :: until_exec t'
  end.

(** ** The paths through [main] *)

(** Every run of [main] follows one of nine paths, told apart by the
    answers of the platform; each gives the result and the whole trace. *)
Inductive path (P : platform) (argv envp : list string)
  : outcome Z -> list event -> Prop :=
| path_usage :
    (List.length argv <= 2)%nat ->
    path P argv envp (Returned EXIT_FAILURE)
      [Stderr (usage_msg (nth_error argv 0))]
| path_lookup_error e :
    (2 < List.length argv)%nat ->
    pf_getpwnam P (arg argv 1) = (None, Some e) -> e <> 0 ->
    path P argv envp (Returned EXIT_FAILURE)
      [Getpwnam (arg argv 1) None; Stderr (perror_text P "getpanam" e)]
| path_not_found eff :
    (2 < List.length argv)%nat ->
    pf_getpwnam P (arg argv 1) = (None, eff) -> errno_after 0 eff = 0 ->
    path P argv envp (Returned EXIT_FAILURE)
      [Getpwnam (arg argv 1) None; Stderr (not_found_msg (arg argv 1))]
| path_root pw eff :
    (2 < List.length argv)%nat ->
    pf_getpwnam P (arg argv 1) = (Some pw, eff) -> pw_uid pw = 0%N ->
    path P argv envp (Returned EXIT_FAILURE)
      [Getpwnam (arg argv 1) (Some pw); Stderr root_msg]
| path_grant_failed pw eff r eff1 :
    (2 < List.length argv)%nat ->
    pf_getpwnam P (arg argv 1) = (Some pw, eff) -> pw_uid pw <> 0%N ->
    pf_capng_updatev P CAPNG_ADD grant_types grant_varargs = (r, eff1) ->
    r < 0 ->
    path P argv envp (Returned EXIT_FAILURE)
      [Getpwnam (arg argv 1) (Some pw); CapngClear CAPNG_SELECT_BOTH;
       CapngUpdatev CAPNG_ADD grant_types grant_varargs r;
       Stderr (updatev_msg r)]
| path_switch_failed pw eff r eff1 r' eff2 :
    (2 < List.length argv)%nat ->
    pf_getpwnam P (arg argv 1) = (Some pw, eff) -> pw_uid pw <> 0%N ->
    pf_capng_updatev P CAPNG_ADD grant_types grant_varargs = (r, eff1) ->
    0 <= r ->
    pf_capng_change_id P (int_of_unsigned (pw_uid pw))
      (int_of_unsigned (pw_gid pw)) CAPNG_INIT_SUPP_GRP = (r', eff2) ->
    r' < 0 ->
    path P argv envp (Returned EXIT_FAILURE)
      [Getpwnam (arg argv 1) (Some pw); CapngClear CAPNG_SELECT_BOTH;
       CapngUpdatev CAPNG_ADD grant_types grant_varargs r;
       CapngChangeId (int_of_unsigned (pw_uid pw))
         (int_of_unsigned (pw_gid pw)) CAPNG_INIT_SUPP_GRP r';
       Stderr (change_id_msg r')]
| path_exec_failed pw eff r eff1 r' eff2 x eff3 :
    (2 < List.length argv)%nat ->
    pf_getpwnam P (arg argv 1) = (Some pw, eff) -> pw_uid pw <> 0%N ->
    pf_capng_updatev P CAPNG_ADD grant_types grant_varargs = (r, eff1) ->
    0 <= r ->
    pf_capng_change_id P (int_of_unsigned (pw_uid pw))
      (int_of_unsigned (pw_gid pw)) CAPNG_INIT_SUPP_GRP = (r', eff2) ->
    0 <= r' ->
    pf_execvpe P (arg argv 2) (skipn 2 argv) envp = Some (x, eff3) ->
    x < 0 ->
    path P argv envp (Returned EXIT_FAILURE)
      [Getpwnam (arg argv 1) (Some pw); CapngClear CAPNG_SELECT_BOTH;
       CapngUpdatev CAPNG_ADD grant_types grant_varargs r;
       CapngChangeId (int_of_unsigned (pw_uid pw))
         (int_of_unsigned (pw_gid pw)) CAPNG_INIT_SUPP_GRP r';
       Execvpe (arg argv 2) (skipn 2 argv) envp (Some x);
       Stderr (perror_text P "execvpe" (errno_after 0 eff3))]
| path_exec_returned pw eff r eff1 r' eff2 x eff3 :
    (2 < List.length argv)%nat ->
    pf_getpwnam P (arg argv 1) = (Some pw, eff) -> pw_uid pw <> 0%N ->
    pf_capng_updatev P CAPNG_ADD grant_types grant_varargs = (r, eff1) ->
    0 <= r ->
    pf_capng_change_id P (int_of_unsigned (pw_uid pw))
      (int_of_unsigned (pw_gid pw)) CAPNG_INIT_SUPP_GRP = (r', eff2) ->
    0 <= r' ->
    pf_execvpe P (arg argv 2) (skipn 2 argv) envp = Some (x, eff3) ->
    0 <= x ->
    path P argv envp (Returned EXIT_SUCCESS)
      [Getpwnam (arg argv 1) (Some pw); CapngClear CAPNG_SELECT_BOTH;
       CapngUpdatev CAPNG_ADD grant_types grant_varargs r;
       CapngChangeId (int_of_unsigned (pw_uid pw))
         (int_of_unsigned (pw_gid pw)) CAPNG_INIT_SUPP_GRP r';
       Execvpe (arg argv 2) (skipn 2 argv) envp (Some x)]
| path_replaced pw eff r eff1 r' eff2 :
    (2 < List.length argv)%nat ->
    pf_getpwnam P (arg argv 1) = (Some pw, eff) -> pw_uid pw <> 0%N ->
    pf_capng_updatev P CAPNG_ADD grant_types grant_varargs = (r, eff1) ->
    0 <= r ->
    pf_capng_change_id P (int_of_unsigned (pw_uid pw))
      (int_of_unsigned (pw_gid pw)) CAPNG_INIT_SUPP_GRP = (r', eff2) ->
    0 <= r' ->
    pf_execvpe P (arg argv 2) (skipn 2 argv) envp = None ->
    path P argv envp Replaced
      [Getpwnam (arg argv 1) (Some pw); CapngClear CAPNG_SELECT_BOTH;
       CapngUpdatev CAPNG_ADD grant_types grant_varargs r;
       CapngChangeId (int_of_unsigned (pw_uid pw))
         (int_of_unsigned (pw_gid pw)) CAPNG_INIT_SUPP_GRP r';
       Execvpe (arg argv 2) (skipn 2 argv) envp None].

(** ** The steps of the pipeline *)

(** The platform steps of the pipeline, in the order of the source. *)
Inductive step := Resolve | Clear | Grant | Switch | Exec.

Definition step_of (ev : event) : option step :=
  match ev with
  | Stderr _ => None
  | Getpwnam _ _ => Some Resolve
  | CapngClear _ => Some Clear
  | CapngUpdatev _ _ _ _ => Some Grant
  | CapngChangeId _ _ _ _ => Some Switch
  | Execvpe _ _ _ _ => Some Exec
  end.

Fixpoint steps (t : list event) : list step :=
  match t with
  | [] => []
  | ev :: t' =>
      match step_of ev with
      | Some s => s :: steps t'
      | None => steps t'
      end
  end.

Definition pipeline : list step := [Resolve; Clear; Grant; Switch; Exec].

(** ** Assumptions on the platform *)


(** [P] with other values left in [errno] by the calls that succeed
    before the loader is reached: a lookup that finds an entry, the clear,
    the grant and the switch.  Return values, the answer of a failed
    lookup and the loader are those of [P]. *)
Definition with_leftover_errno (P : platform)
    (lookup_eff : string -> errno_effect)
    (clear_eff : Z -> errno_effect)
    (grant_eff : capng_act_t -> Z -> list Z -> errno_effect)
    (switch_eff : Z -> Z -> Z -> errno_effect) : platform :=
  mk_platform
    (fun n =>
       match pf_getpwnam P n with
       | (Some pw, _) => (Some pw, lookup_eff n)
       | (None, eff) => (None, eff)
       end)
    clear_eff
    (fun a t v => (fst (pf_capng_updatev P a t v), grant_eff a t v))
    (fun u g f => (fst (pf_capng_change_id P u g f), switch_eff u g f))
    (pf_execvpe P)
    (pf_strerror P).

(** ** Example platforms *)

(** Example platforms for the concrete runs below: [alice] is an ordinary
    user, [toor] a second name of uid 0, [operator] an ordinary user whose
    primary group is the root group; the lookup of [broken] fails with
    error 5 and no other name exists. *)
Definition demo_getpwnam (n : string) : option passwd * errno_effect :=
  if String.eqb n "alice" then (Some (mk_passwd 1000 1000), None)
  else if String.eqb n "toor" then (Some (mk_passwd 0 0), None)
  else if String.eqb n "operator" then (Some (mk_passwd 11 0), Some 2)
  else if String.eqb n "broken" then (None, Some 5)
  else (None, None).

Definition demo_strerror (e : Z) : string :=
  if e =? 0 then "Success"%string
  else if e =? 2 then "No such file or directory"%string
  else if e =? 5 then "Input/output error"%string
  else "Unknown error"%string.

(** Grant and switch answer [g] and [s]; the loader fails with error 2
    on [/nonexistent/binary] and replaces the image otherwise. *)
Definition demo (g s : Z) : platform :=
  mk_platform demo_getpwnam
    (fun _ => None)
    (fun _ _ _ => (g, Some 1))
    (fun _ _ _ => (s, Some 1))
    (fun f _ _ => if String.eqb f "/nonexistent/binary"
                  then Some (-1, Some 2) else None)
    demo_strerror.


(** ** Properties *)

Ltac run_call :=
  match goal with
  | |- context [pf_getpwnam ?P ?n] =>
      let E := fresh "Elookup" in
      destruct (pf_getpwnam P n) as [[?pw|] [?e|]] eqn:E
  | |- context [pf_capng_clear ?P ?s] =>
      destruct (pf_capng_clear P s) as [?e|]
  | |- context [pf_capng_updatev ?P ?a ?t ?c] =>
      let E := fresh "Egrant" in
      destruct (pf_capng_updatev P a t c) as [?r [?e|]] eqn:E
  | |- context [pf_capng_change_id ?P ?u ?g ?f] =>
      let E := fresh "Eswitch" in
      destruct (pf_capng_change_id P u g f) as [?r [?e|]] eqn:E
  | |- context [pf_execvpe ?P ?f ?a ?e] =>
      let E := fresh "Eexec" in
      destruct (pf_execvpe P f a e) as [[?x [?e|]]|] eqn:E
  | |- context [(?uid =? 0)%N] => destruct (N.eqb_spec uid 0)
  | |- context [?x <? 0] => destruct (Z.ltb_spec x 0)
  | |- context [?argc <=? 2] => destruct (Z.leb_spec argc 2)
  | |- context [?e =? 0] => destruct (Z.eqb_spec e 0)
  end.

Ltac unfold_calls :=
  cbv [run result_of trace_of main getpwnam capng_clear capng_updatev
       capng_change_id execvpe perror fprintf_stderr emit affect_errno
       set_errno get_errno bind pure fst snd trace errno app negb].

Lemma main_path (P : platform) (e0 : Z) (argv envp : list string) :
  path P argv envp (result_of P e0 argv envp) (trace_of P e0 argv envp).
Proof.
  unfold_calls.
  repeat (run_call; unfold_calls).
  all: try match goal with
         | H : pf_execvpe _ _ _ _ = Some (_, ?eff)
           |- context [perror_text _ "execvpe"%string ?v] =>
             change v with (errno_after 0 eff)
         end.
  all: econstructor; solve [eauto | simpl; lia].
Qed.

Example run_alice_echo :
  run (demo 0 0) 0 ["suid-wrapper"; "alice"; "/bin/echo"; "hello"]%string
      ["PATH=/bin"%string]
  = (Replaced,
     mk_proc 0
       [Getpwnam "alice" (Some (mk_passwd 1000 1000));
        CapngClear 48;
        CapngUpdatev CAPNG_ADD 23 [7; 6; -1] 0;
        CapngChangeId 1000 1000 4 0;
        Execvpe "/bin/echo" ["/bin/echo"; "hello"]%string
                ["PATH=/bin"%string] None]).
Proof. reflexivity. Qed.

Example run_alice_nonexistent :
  run (demo 0 0) 0 ["suid-wrapper"; "alice"; "/nonexistent/binary"]%string []
  = (Returned 1,
     mk_proc 2
       [Getpwnam "alice" (Some (mk_passwd 1000 1000));
        CapngClear 48;
        CapngUpdatev CAPNG_ADD 23 [7; 6; -1] 0;
        CapngChangeId 1000 1000 4 0;
        Execvpe "/nonexistent/binary" ["/nonexistent/binary"%string] []
                (Some (-1));
        Stderr ("execvpe: No such file or directory" ++ newline)%string]).
Proof. reflexivity. Qed.

Example fmt_d_negative : fmt_d (-13) = "-13"%string.
Proof. reflexivity. Qed.

(** Two answers recorded for the same call are equal. *)
Ltac same_answers :=
  repeat match goal with
         | H1 : ?c = (_, _), H2 : ?c = (_, _) |- _ =>
             rewrite H1 in H2; inversion H2; clear H2; subst
         | H1 : ?c = Some _, H2 : ?c = Some _ |- _ =>
             rewrite H1 in H2; inversion H2; clear H2; subst
         | H1 : ?c = Some _, H2 : ?c = None |- _ =>
             rewrite H1 in H2; discriminate H2
         end.

(** A run has one path. *)
Lemma path_functional (P : platform) (argv envp : list string)
    (o o' : outcome Z) (t t' : list event) :
  path P argv envp o t -> path P argv envp o' t' -> o = o' /\ t = t'.
Proof.
  intros H1 H2.
  destruct H1; destruct H2; same_answers;
    try solve [lia | contradiction | discriminate
              | simpl in *; congruence | split; reflexivity].
Qed.

(** A path on the platform with other leftovers is a path on [P]. *)
Lemma path_leftover (P : platform) lookup_eff clear_eff grant_eff switch_eff
    (argv envp : list string) (o : outcome Z) (t : list event) :
  path (with_leftover_errno P lookup_eff clear_eff grant_eff switch_eff)
       argv envp o t ->
  path P argv envp o t.
Proof.
  intros H.
  destruct H;
    repeat match goal with
           | H : pf_getpwnam (with_leftover_errno _ _ _ _ _) ?n = _ |- _ =>
               simpl in H;
               let E := fresh "Elookup" in
               destruct (pf_getpwnam P n) as [[?pw|] ?eff] eqn:E;
               inversion H; clear H; subst
           | H : pf_capng_updatev (with_leftover_errno _ _ _ _ _) ?a ?t ?v = _
             |- _ =>
               simpl in H;
               let E := fresh "Egrant" in
               destruct (pf_capng_updatev P a t v) as [?r ?eff] eqn:E;
               inversion H; clear H; subst
           | H : pf_capng_change_id (with_leftover_errno _ _ _ _ _) ?u ?g ?f = _
             |- _ =>
               simpl in H;
               let E := fresh "Eswitch" in
               destruct (pf_capng_change_id P u g f) as [?r ?eff] eqn:E;
               inversion H; clear H; subst
           | H : pf_execvpe (with_leftover_errno _ _ _ _ _) _ _ _ = _ |- _ =>
               change (pf_execvpe (with_leftover_errno P lookup_eff clear_eff
                                     grant_eff switch_eff))
                 with (pf_execvpe P) in H
           end;
    try change (perror_text (with_leftover_errno P lookup_eff clear_eff
                               grant_eff switch_eff))
      with (perror_text P);
    simpl fst in *.
  all: econstructor; eassumption.
Qed.

(** A contradiction between two answers recorded for the same call, or
    between two arithmetic facts. *)
Ltac absurd_path :=
  solve [ congruence | lia
        | match goal with
          | H1 : ?c = (_, _), H2 : ?c = (_, _) |- _ =>
              rewrite H1 in H2; inversion H2; subst; clear H2;
              solve [congruence | lia | (simpl in *; lia)]
          | H1 : ?c = Some _, H2 : ?c = Some _ |- _ =>
              rewrite H1 in H2; inversion H2; subst; clear H2;
              solve [congruence | lia | (simpl in *; lia)]
          end ].

(** The path of a run, with the cases that contradict the context
    removed. *)
Ltac on_path P e0 argv envp :=
  let Hp := fresh "Hpath" in
  pose proof (main_path P e0 argv envp) as Hp;
  destruct Hp; try absurd_path.

(** C1: when the target name resolves to an identity of user id 0, whatever
    the name is, the program writes the root-disallowed line, returns a
    non-zero status, and its trace holds the lookup and that line only: no
    capability is cleared or granted and no identity switch is made. *)
Theorem root_target_rejected (P : platform) (e0 : Z) (argv envp : list string)
    (pw : passwd) (eff : errno_effect) :
  (2 < List.length argv)%nat ->
  pf_getpwnam P (arg argv 1) = (Some pw, eff) ->
  pw_uid pw = 0%N ->
  result_of P e0 argv envp = Returned EXIT_FAILURE /\
  EXIT_FAILURE <> 0 /\
  trace_of P e0 argv envp =
    [Getpwnam (arg argv 1) (Some pw);
     Stderr ("can not run as root (uid = 0)" ++ newline)%string] /\
  existsb is_capability_mutation (trace_of P e0 argv envp) = false /\
  existsb is_identity_switch (trace_of P e0 argv envp) = false /\
  existsb is_exec (trace_of P e0 argv envp) = false.
Proof.
  intros Hargc Hlookup Huid.
  on_path P e0 argv envp. same_answers.
  repeat split; try reflexivity. discriminate.
Qed.

Lemma root_target_rejected_witness :
  result_of (demo 0 0) 0 ["suid-wrapper"; "toor"; "/bin/sh"]%string []
    = Returned EXIT_FAILURE /\
  existsb is_capability_mutation
    (trace_of (demo 0 0) 0 ["suid-wrapper"; "toor"; "/bin/sh"]%string [])
    = false.
Proof.
  pose proof (root_target_rejected (demo 0 0) 0
                ["suid-wrapper"; "toor"; "/bin/sh"]%string []
                (mk_passwd 0 0) None) as H.
  assert (Hargc : (2 < List.length ["suid-wrapper"; "toor"; "/bin/sh"]%string)%nat)
    by (simpl; lia).
  specialize (H Hargc eq_refl eq_refl).
  destruct H as (Hr & _ & _ & Hc & _).
  split; [exact Hr | exact Hc].
Defined.

(** C5: when the lookup returns no entry, the value of [errno] after the
    call selects the diagnostic: a non-zero value gives the text of the
    system error ([perror]), zero gives the user-not-found line that names
    the requested user.  Both modes return the same non-zero status, and
    the trace holds no capability mutation. *)
Theorem lookup_failure_modes (P : platform) (e0 : Z) (argv envp : list string)
    (eff : errno_effect) :
  (2 < List.length argv)%nat ->
  pf_getpwnam P (arg argv 1) = (None, eff) ->
  result_of P e0 argv envp = Returned EXIT_FAILURE /\
  EXIT_FAILURE <> 0 /\
  (errno_after 0 eff <> 0 ->
   trace_of P e0 argv envp =
     [Getpwnam (arg argv 1) None;
      Stderr ("getpanam: " ++ pf_strerror P (errno_after 0 eff) ++ newline)
             %string]) /\
  (errno_after 0 eff = 0 ->
   trace_of P e0 argv envp =
     [Getpwnam (arg argv 1) None;
      Stderr ("getpwnam: can not find user " ++ arg argv 1 ++ newline)
             %string]) /\
  existsb is_capability_mutation (trace_of P e0 argv envp) = false /\
  existsb is_identity_switch (trace_of P e0 argv envp) = false.
Proof.
  intros Hargc Hlookup.
  on_path P e0 argv envp; same_answers.
  - repeat split; try reflexivity; try discriminate.
    simpl. intros; contradiction.
  - repeat split; try reflexivity; try discriminate.
    intros; contradiction.
Qed.

Lemma lookup_failure_modes_witness :
  trace_of (demo 0 0) 0 ["suid-wrapper"; "broken"; "/bin/true"]%string []
    = [Getpwnam "broken" None;
       Stderr ("getpanam: Input/output error" ++ newline)%string] /\
  trace_of (demo 0 0) 0 ["suid-wrapper"; "ghost-user"; "/bin/true"]%string []
    = [Getpwnam "ghost-user" None;
       Stderr ("getpwnam: can not find user ghost-user" ++ newline)%string].
Proof.
  split.
  - apply (lookup_failure_modes (demo 0 0) 0
             ["suid-wrapper"; "broken"; "/bin/true"]%string [] (Some 5));
      [simpl; lia | reflexivity | simpl; lia].
  - apply (lookup_failure_modes (demo 0 0) 0
             ["suid-wrapper"; "ghost-user"; "/bin/true"]%string [] None);
      [simpl; lia | reflexivity | reflexivity].
Defined.

(** C6: with fewer than three tokens the program writes the usage line to
    the standard error stream and returns a non-zero status, and that line
    is its whole trace: no lookup, no capability mutation, no identity
    switch.  With three tokens or more no usage line is written and the
    first action is the lookup of the second token. *)
Theorem argument_validation (P : platform) (e0 : Z) (argv envp : list string) :
  ((List.length argv < 3)%nat ->
   result_of P e0 argv envp = Returned EXIT_FAILURE /\
   EXIT_FAILURE <> 0 /\
   trace_of P e0 argv envp =
     [Stderr ("usage: " ++ fmt_s (nth_error argv 0)
                ++ " user cmd argv [argv]" ++ newline)%string] /\
   existsb is_lookup (trace_of P e0 argv envp) = false /\
   existsb is_capability_mutation (trace_of P e0 argv envp) = false /\
   existsb is_identity_switch (trace_of P e0 argv envp) = false) /\
  ((3 <= List.length argv)%nat ->
   exists rest,
     trace_of P e0 argv envp =
       Getpwnam (arg argv 1) (fst (pf_getpwnam P (arg argv 1))) :: rest /\
     ~ In (Stderr (usage_msg (nth_error argv 0))) rest).
Proof.
  split; intros Hargc.
  - on_path P e0 argv envp.
    repeat split; try reflexivity. discriminate.
  - on_path P e0 argv envp;
      match goal with
      | H : pf_getpwnam _ _ = _ |- _ => rewrite H
      end;
      eexists; (split; [reflexivity |]);
      simpl; intros Hin;
      repeat match goal with
             | H : _ \/ _ |- _ => destruct H
             | H : False |- _ => contradiction
             | H : _ = Stderr _ |- _ => try discriminate H
             end.
    all: match goal with
         | H : Stderr _ = Stderr _ |- _ =>
             inversion H as [Hmsg]; cbv in Hmsg; discriminate Hmsg
         end.
Qed.

Lemma argument_validation_witness :
  trace_of (demo 0 0) 0 ["suid-wrapper"; "alice"]%string []
    = [Stderr ("usage: suid-wrapper user cmd argv [argv]" ++ newline)%string]
  /\ exists rest,
       trace_of (demo 0 0) 0 ["suid-wrapper"; "alice"; "/bin/true"]%string []
         = Getpwnam "alice" (Some (mk_passwd 1000 1000)) :: rest.
Proof.
  split.
  - apply (argument_validation (demo 0 0) 0
             ["suid-wrapper"; "alice"]%string []).
    simpl; lia.
  - destruct (proj2 (argument_validation (demo 0 0) 0
                       ["suid-wrapper"; "alice"; "/bin/true"]%string []))
      as [rest [Hrest _]]; [simpl; lia |].
    exists rest. exact Hrest.
Defined.

(** The membership of an event in a trace that is written out. *)
Ltac in_trace :=
  repeat match goal with
         | H : In _ (_ :: _) |- _ => destruct H as [H | H]
         | H : In _ [] |- _ => destruct H
         | H : @eq event _ _ |- _ => first [discriminate H | inversion H; clear H; subst]
         end.

(** Closes the leading conjuncts of the goal that hold by computation. *)
Ltac split_refl :=
  repeat match goal with
         | |- _ /\ _ => split; [reflexivity |]
         end.

(** C3: once the root guard is passed, the program clears the capability
    sets selected by [CAPNG_SELECT_BOTH] (the traditional sets and the
    bounding set), then makes one grant: action [CAPNG_ADD], the categories
    effective, permitted, inheritable and ambient (not the bounding set),
    the capabilities [CAP_SETUID] and [CAP_SETGID] and no other.  No other
    capability mutation follows.  When the grant answers a negative code,
    the program writes that code in decimal, returns a non-zero status and
    makes no identity switch. *)
Theorem capability_restrictor (P : platform) (e0 : Z) (argv envp : list string)
    (pw : passwd) (eff : errno_effect) :
  (2 < List.length argv)%nat ->
  pf_getpwnam P (arg argv 1) = (Some pw, eff) ->
  pw_uid pw <> 0%N ->
  exists types varargs rest,
    trace_of P e0 argv envp =
      Getpwnam (arg argv 1) (Some pw)
      :: CapngClear CAPNG_SELECT_BOTH
      :: CapngUpdatev CAPNG_ADD types varargs
           (fst (pf_capng_updatev P CAPNG_ADD types varargs))
      :: rest /\
    has_flag CAPNG_SELECT_BOTH CAPNG_SELECT_CAPS = true /\
    has_flag CAPNG_SELECT_BOTH CAPNG_SELECT_BOUNDS = true /\
    has_flag types CAPNG_EFFECTIVE = true /\
    has_flag types CAPNG_PERMITTED = true /\
    has_flag types CAPNG_INHERITABLE = true /\
    has_flag types CAPNG_AMBIENT = true /\
    has_flag types CAPNG_BOUNDING_SET = false /\
    caps_of_varargs varargs = [CAP_SETUID; CAP_SETGID] /\
    existsb is_capability_mutation rest = false /\
    (fst (pf_capng_updatev P CAPNG_ADD types varargs) < 0 ->
     rest = [Stderr ("capng_updatev() returns "
                       ++ fmt_d (fst (pf_capng_updatev P CAPNG_ADD types varargs))
                       ++ newline)%string] /\
     result_of P e0 argv envp = Returned EXIT_FAILURE /\
     EXIT_FAILURE <> 0 /\
     existsb is_identity_switch (trace_of P e0 argv envp) = false).
Proof.
  intros Hargc Hlookup Huid.
  exists grant_types, grant_varargs.
  on_path P e0 argv envp;
    match goal with
    | H : pf_getpwnam _ _ = (Some _, _) |- _ =>
        rewrite Hlookup in H; inversion H; subst; clear H
    end;
    match goal with
    | H : pf_capng_updatev _ _ _ _ = _ |- _ => rewrite H
    end;
    eexists; split_refl;
    simpl fst; intros Hneg; try lia.
  repeat split; try reflexivity. discriminate.
Qed.

Lemma capability_restrictor_witness :
  exists types varargs rest,
    trace_of (demo (-5) 0) 0 ["suid-wrapper"; "alice"; "/bin/true"]%string [] =
      Getpwnam "alice" (Some (mk_passwd 1000 1000))
      :: CapngClear CAPNG_SELECT_BOTH
      :: CapngUpdatev CAPNG_ADD types varargs (-5)
      :: rest /\
    caps_of_varargs varargs = [CAP_SETUID; CAP_SETGID] /\
    rest = [Stderr ("capng_updatev() returns -5" ++ newline)%string].
Proof.
  destruct (capability_restrictor (demo (-5) 0) 0
              ["suid-wrapper"; "alice"; "/bin/true"]%string []
              (mk_passwd 1000 1000) None)
    as (types & varargs & rest & Ht & _ & _ & _ & _ & _ & _ & _ & Hcaps & _ & Hfail);
    [simpl; lia | reflexivity | discriminate |].
  exists types, varargs, rest.
  split; [exact Ht |].
  split; [exact Hcaps |].
  apply Hfail. simpl. lia.
Defined.





(** From the third token on, the invocation is the command followed by
    its arguments. *)
Lemma command_tail (argv : list string) :
  (2 < List.length argv)%nat ->
  skipn 2 argv = arg argv 2 :: skipn 3 argv.
Proof.
  destruct argv as [|a0 [|a1 [|a2 rest]]]; simpl; intros H; try lia.
  reflexivity.
Qed.

(** C7: once the identity switch has succeeded, the program calls the
    loader with path search ([execvpe]) on the third token, with the
    argument vector made of the invocation from the third token on (the
    command is argument zero, its arguments follow unchanged) and with the
    environment [main] received.  When the image is replaced nothing else
    happens; when the call returns a negative value the program writes the
    text of the system error left by the call and returns a non-zero
    status. *)
Theorem exec_launcher (P : platform) (e0 : Z) (argv envp : list string)
    (pw : passwd) (eff : errno_effect) :
  (2 < List.length argv)%nat ->
  pf_getpwnam P (arg argv 1) = (Some pw, eff) ->
  pw_uid pw <> 0%N ->
  0 <= fst (pf_capng_updatev P CAPNG_ADD grant_types grant_varargs) ->
  0 <= fst (pf_capng_change_id P (int_of_unsigned (pw_uid pw))
              (int_of_unsigned (pw_gid pw)) CAPNG_INIT_SUPP_GRP) ->
  exists before rest,
    trace_of P e0 argv envp =
      before
      ++ Execvpe (arg argv 2) (arg argv 2 :: skipn 3 argv) envp
           (option_map fst (pf_execvpe P (arg argv 2) (skipn 2 argv) envp))
      :: rest /\
    existsb is_exec before = false /\
    skipn 2 argv = arg argv 2 :: skipn 3 argv /\
    (pf_execvpe P (arg argv 2) (skipn 2 argv) envp = None ->
     rest = [] /\ result_of P e0 argv envp = Replaced) /\
    (forall r eff3,
       pf_execvpe P (arg argv 2) (skipn 2 argv) envp = Some (r, eff3) ->
       r < 0 ->
       rest = [Stderr ("execvpe: " ++ pf_strerror P (errno_after 0 eff3)
                         ++ newline)%string] /\
       result_of P e0 argv envp = Returned EXIT_FAILURE /\
       EXIT_FAILURE <> 0).
Proof.
  intros Hargc Hlookup Huid Hgrant Hswitch.
  rewrite <- (command_tail argv Hargc).
  on_path P e0 argv envp;
    match goal with
    | H : pf_getpwnam _ _ = (Some _, _) |- _ =>
        rewrite Hlookup in H; inversion H; subst; clear H
    end;
    repeat match goal with
           | H : pf_capng_updatev _ _ _ _ = _ |- _ =>
               rewrite H in *; clear H
           | H : pf_capng_change_id _ _ _ _ = _ |- _ =>
               rewrite H in *; clear H
           end;
    simpl fst in *; try lia;
    match goal with
    | H : pf_execvpe _ _ _ _ = _ |- _ => rewrite H
    end;
    (eexists [_; _; _; _]); eexists; split_refl;
    (split; [intros Hx; try discriminate Hx |
             intros r3 eff4 Hx Hneg; inversion Hx; subst; try lia]).
  - split; [reflexivity |]. split; [reflexivity | discriminate].
  - split; reflexivity.
Qed.

Lemma exec_launcher_witness :
  exists before rest,
    trace_of (demo 0 0) 0
      ["suid-wrapper"; "alice"; "/nonexistent/binary"; "-v"]%string
      ["HOME=/root"%string] =
      before
      ++ Execvpe "/nonexistent/binary" ["/nonexistent/binary"; "-v"]%string
           ["HOME=/root"%string] (Some (-1))
      :: rest /\
    rest = [Stderr ("execvpe: No such file or directory" ++ newline)%string].
Proof.
  destruct (exec_launcher (demo 0 0) 0
              ["suid-wrapper"; "alice"; "/nonexistent/binary"; "-v"]%string
              ["HOME=/root"%string] (mk_passwd 1000 1000) None)
    as (before & rest & Ht & _ & _ & _ & Hfail);
    [simpl; lia | reflexivity | discriminate | simpl; lia | simpl; lia |].
  exists before, rest.
  split; [exact Ht |].
  apply (Hfail (-1) (Some 2)); [reflexivity | lia].
Defined.

(** C9: the root guard reads the user id only.  For every resolved
    identity of non-zero user id, whatever its primary group id, no
    root-disallowed line is written and the program goes on to the
    capability calls; when the grant succeeds, the identity switch is
    called with the resolved primary group id converted to [int], so with
    group id 0, which asks for group 0, for an identity whose primary
    group is the root group. *)
Theorem root_guard_reads_uid_only (P : platform) (e0 : Z)
    (argv envp : list string) (pw : passwd) (eff : errno_effect) :
  (2 < List.length argv)%nat ->
  pf_getpwnam P (arg argv 1) = (Some pw, eff) ->
  pw_uid pw <> 0%N ->
  ~ In (Stderr root_msg) (trace_of P e0 argv envp) /\
  (exists r rest,
     trace_of P e0 argv envp =
       Getpwnam (arg argv 1) (Some pw)
       :: CapngClear CAPNG_SELECT_BOTH
       :: CapngUpdatev CAPNG_ADD grant_types grant_varargs r
       :: rest) /\
  (0 <= fst (pf_capng_updatev P CAPNG_ADD grant_types grant_varargs) ->
   exists r,
     In (CapngChangeId (int_of_unsigned (pw_uid pw))
           (int_of_unsigned (pw_gid pw)) CAPNG_INIT_SUPP_GRP r)
        (trace_of P e0 argv envp)) /\
  (pw_gid pw = 0%N ->
   0 <= fst (pf_capng_updatev P CAPNG_ADD grant_types grant_varargs) ->
   requested_id 0 = Some 0%N /\
   exists r,
     In (CapngChangeId (int_of_unsigned (pw_uid pw)) 0 CAPNG_INIT_SUPP_GRP r)
        (trace_of P e0 argv envp)).
Proof.
  intros Hargc Hlookup Huid.
  on_path P e0 argv envp;
    match goal with
    | H : pf_getpwnam _ _ = (Some _, _) |- _ =>
        rewrite Hlookup in H; inversion H; subst; clear H
    end;
    repeat match goal with
           | H : pf_capng_updatev _ _ _ _ = _ |- _ =>
               rewrite H in *; clear H
           end;
    simpl fst in *.
  all: split;
    [ intros Hin; in_trace;
      match goal with
      | H : _ = _ :> string |- _ => cbv in H; discriminate H
      end
    | split; [eexists; eexists; reflexivity |] ].
  all: split;
    [ intros Hg
    | intros Hgid Hg; (split; [reflexivity |]);
      change 0 with (int_of_unsigned 0) at 1; rewrite <- Hgid ];
    try lia.
  all: eexists; simpl; eauto 8.
Qed.

Lemma root_guard_reads_uid_only_witness :
  requested_id 0 = Some 0%N /\
  exists r,
    In (CapngChangeId 11 0 CAPNG_INIT_SUPP_GRP r)
       (trace_of (demo 0 0) 0 ["suid-wrapper"; "operator"; "/bin/id"]%string
                 []).
Proof.
  destruct (root_guard_reads_uid_only (demo 0 0) 0
              ["suid-wrapper"; "operator"; "/bin/id"]%string []
              (mk_passwd 11 0) (Some 2))
    as (_ & _ & _ & Hroot_group);
    [simpl; lia | reflexivity | discriminate |].
  apply Hroot_group; [reflexivity | simpl; lia].
Defined.

(** ** The order of the steps *)

(** C2: the platform steps of every run are an initial segment of
    lookup, clear, grant, switch, exec, each at most once and in that
    order.  A step is reached only when the one before it succeeded: the
    lookup needs three tokens, the clear needs a resolved identity of
    non-zero user id, the switch needs a grant that answered a
    non-negative code, the exec needs a switch that answered a
    non-negative code.  A failure of any step ends the run there with a
    non-zero status, and a diagnostic is always the last action of a
    run. *)
Theorem strict_step_order (P : platform) (e0 : Z) (argv envp : list string) :
  (exists k, steps (trace_of P e0 argv envp) = firstn k pipeline) /\
  EXIT_FAILURE <> 0 /\
  (In Resolve (steps (trace_of P e0 argv envp)) ->
   (2 < List.length argv)%nat) /\
  (In Clear (steps (trace_of P e0 argv envp)) ->
   exists pw before after,
     trace_of P e0 argv envp
       = before ++ Getpwnam (arg argv 1) (Some pw) :: after /\
     In Clear (steps after) /\ pw_uid pw <> 0%N) /\
  (In Switch (steps (trace_of P e0 argv envp)) ->
   exists s r before after,
     trace_of P e0 argv envp
       = before ++ CapngClear s
                :: CapngUpdatev CAPNG_ADD grant_types grant_varargs r
                :: after /\
     In Switch (steps after) /\ 0 <= r) /\
  (In Exec (steps (trace_of P e0 argv envp)) ->
   exists u g f r before after,
     trace_of P e0 argv envp = before ++ CapngChangeId u g f r :: after /\
     In Exec (steps after) /\ 0 <= r) /\
  ((List.length argv <= 2)%nat ->
   steps (trace_of P e0 argv envp) = [] /\
   result_of P e0 argv envp = Returned EXIT_FAILURE) /\
  (forall n, In (Getpwnam n None) (trace_of P e0 argv envp) ->
   steps (trace_of P e0 argv envp) = firstn 1 pipeline /\
   result_of P e0 argv envp = Returned EXIT_FAILURE) /\
  (forall n pw, In (Getpwnam n (Some pw)) (trace_of P e0 argv envp) ->
   pw_uid pw = 0%N ->
   steps (trace_of P e0 argv envp) = firstn 1 pipeline /\
   result_of P e0 argv envp = Returned EXIT_FAILURE) /\
  (forall a t v r, In (CapngUpdatev a t v r) (trace_of P e0 argv envp) ->
   r < 0 ->
   steps (trace_of P e0 argv envp) = firstn 3 pipeline /\
   result_of P e0 argv envp = Returned EXIT_FAILURE) /\
  (forall u g f r, In (CapngChangeId u g f r) (trace_of P e0 argv envp) ->
   r < 0 ->
   steps (trace_of P e0 argv envp) = firstn 4 pipeline /\
   result_of P e0 argv envp = Returned EXIT_FAILURE) /\
  (forall f a e r, In (Execvpe f a e (Some r)) (trace_of P e0 argv envp) ->
   r < 0 ->
   steps (trace_of P e0 argv envp) = pipeline /\
   result_of P e0 argv envp = Returned EXIT_FAILURE) /\
  (forall before msg after,
     trace_of P e0 argv envp = before ++ Stderr msg :: after ->
     after = [] /\ result_of P e0 argv envp = Returned EXIT_FAILURE).
Proof.
  split.
  { on_path P e0 argv envp;
      [ exists 0%nat | exists 1%nat | exists 1%nat | exists 1%nat
      | exists 3%nat | exists 4%nat | exists 5%nat | exists 5%nat
      | exists 5%nat ]; reflexivity. }
  split; [discriminate |].
  split.
  { on_path P e0 argv envp; simpl; intros Hin; try assumption.
    destruct Hin. }
  split.
  { on_path P e0 argv envp; simpl; intros Hin;
      repeat match goal with
             | H : _ \/ _ |- _ => destruct H
             | H : False |- _ => destruct H
             | H : @eq step _ _ |- _ => discriminate H
             end.
    all: exists pw, []; eexists; split; [reflexivity |]; simpl; auto. }
  split.
  { on_path P e0 argv envp; simpl; intros Hin;
      repeat match goal with
             | H : _ \/ _ |- _ => destruct H
             | H : False |- _ => destruct H
             | H : @eq step _ _ |- _ => discriminate H
             end.
    all: exists CAPNG_SELECT_BOTH, r, [Getpwnam (arg argv 1) (Some pw)];
      eexists; split; [reflexivity |]; simpl; auto. }
  split.
  { on_path P e0 argv envp; simpl; intros Hin;
      repeat match goal with
             | H : _ \/ _ |- _ => destruct H
             | H : False |- _ => destruct H
             | H : @eq step _ _ |- _ => discriminate H
             end.
    all: exists (int_of_unsigned (pw_uid pw)), (int_of_unsigned (pw_gid pw)),
           CAPNG_INIT_SUPP_GRP, r';
      exists [Getpwnam (arg argv 1) (Some pw); CapngClear CAPNG_SELECT_BOTH;
              CapngUpdatev CAPNG_ADD grant_types grant_varargs r];
      eexists; split; [reflexivity |]; simpl; auto. }
  split.
  { intros Hargc. on_path P e0 argv envp. split; reflexivity. }
  split.
  { intros n Hin. on_path P e0 argv envp; in_trace; split; reflexivity. }
  split.
  { intros n pw0 Hin Hroot.
    on_path P e0 argv envp; in_trace; try contradiction; split; reflexivity. }
  split.
  { intros a t v r0 Hin Hneg.
    on_path P e0 argv envp; in_trace; try lia; split; reflexivity. }
  split.
  { intros u g f r0 Hin Hneg.
    on_path P e0 argv envp; in_trace; try lia; split; reflexivity. }
  split.
  { intros f a e r0 Hin Hneg.
    on_path P e0 argv envp; in_trace; try lia; split; reflexivity. }
  intros before msg after Ht.
  on_path P e0 argv envp.
  all: repeat (destruct before as [|? before];
               simpl in Ht; inversion Ht; clear Ht; subst;
               try match goal with
                   | H : _ = _ ++ _ :: _ |- _ => rename H into Ht
                   end);
    try (split; reflexivity).
  all: try match goal with
           | H : [] = _ ++ _ :: _ |- _ => destruct before; discriminate H
           end.
Qed.

Lemma strict_step_order_witness :
  steps (trace_of (demo 0 0) 0
           ["suid-wrapper"; "alice"; "/nonexistent/binary"]%string [])
    = pipeline /\
  result_of (demo 0 0) 0
    ["suid-wrapper"; "alice"; "/nonexistent/binary"]%string []
    = Returned EXIT_FAILURE.
Proof.
  destruct (strict_step_order (demo 0 0) 0
              ["suid-wrapper"; "alice"; "/nonexistent/binary"]%string [])
    as (_ & _ & _ & _ & _ & _ & _ & _ & _ & _ & _ & Hexec & _).
  apply (Hexec "/nonexistent/binary"%string
               ["/nonexistent/binary"%string] [] (-1));
    [simpl; auto 10 | lia].
Defined.

(** ** Exit status and diagnostics *)





(** ** The error indicator *)

(** C10: [errno] is set to 0 just before the lookup and just before the
    loader is called, so the run does not depend on what [errno] held
    before: the result and the trace, diagnostics included, are the same
    for every initial value of [errno] and for every value the successful
    earlier calls leave in it.  The diagnostic of a failed lookup is
    selected by what the lookup itself left in [errno] (0 when it left
    nothing), and the diagnostic of a failed [execvpe] is the text of the
    error the loader itself left (of 0 when it left nothing). *)
Theorem errno_reset_isolates (P : platform) (e0 e0' : Z)
    (argv envp : list string)
    lookup_eff clear_eff grant_eff switch_eff :
  let P' := with_leftover_errno P lookup_eff clear_eff grant_eff switch_eff in
  (result_of P' e0' argv envp = result_of P e0 argv envp /\
   trace_of P' e0' argv envp = trace_of P e0 argv envp) /\
  (forall eff,
     (2 < List.length argv)%nat ->
     pf_getpwnam P (arg argv 1) = (None, eff) ->
     trace_of P e0 argv envp =
       [Getpwnam (arg argv 1) None;
        Stderr (if errno_after 0 eff =? 0
                then not_found_msg (arg argv 1)
                else perror_text P "getpanam" (errno_after 0 eff))]) /\
  (forall before r eff msg,
     trace_of P e0 argv envp
       = before ++ [Execvpe (arg argv 2) (skipn 2 argv) envp (Some r);
                    Stderr msg] ->
     pf_execvpe P (arg argv 2) (skipn 2 argv) envp = Some (r, eff) ->
     msg = perror_text P "execvpe" (errno_after 0 eff)).
Proof.
  intros P'.
  split.
  { pose proof (main_path P e0 argv envp) as Hp.
    pose proof (main_path P' e0' argv envp) as Hp'.
    apply path_leftover in Hp'.
    exact (path_functional P argv envp _ _ _ _ Hp' Hp). }
  split.
  { intros eff Hargc Hlookup.
    on_path P e0 argv envp; same_answers.
    - simpl. destruct (Z.eqb_spec e 0); [contradiction | reflexivity].
    - match goal with H : errno_after 0 _ = 0 |- _ => rewrite H end.
      reflexivity. }
  intros before r eff msg Ht Hexec.
  on_path P e0 argv envp; same_answers.
  all: repeat (destruct before as [|? before];
               simpl in Ht; try discriminate Ht;
               inversion Ht; clear Ht; subst;
               try match goal with
                   | H : _ = before ++ _ |- _ => rename H into Ht
                   end).
  all: try reflexivity.
  all: match goal with
       | H : [] = ?b ++ _ |- _ => destruct b; discriminate H
       | H : [_] = ?b ++ [_; _] |- _ =>
           destruct b as [|? [|? ?]]; discriminate H
       end.
Qed.

Lemma errno_reset_isolates_witness :
  trace_of (with_leftover_errno (demo 0 0) (fun _ => Some 13)
              (fun _ => Some 22) (fun _ _ _ => Some 1) (fun _ _ _ => Some 9))
           77 ["suid-wrapper"; "ghost-user"; "/bin/true"]%string []
    = [Getpwnam "ghost-user" None;
       Stderr ("getpwnam: can not find user ghost-user" ++ newline)%string]
  /\ trace_of (with_leftover_errno (demo 0 0) (fun _ => Some 13)
              (fun _ => Some 22) (fun _ _ _ => Some 1) (fun _ _ _ => Some 9))
           77 ["suid-wrapper"; "alice"; "/nonexistent/binary"]%string []
      = trace_of (demo 0 0) 0
          ["suid-wrapper"; "alice"; "/nonexistent/binary"]%string [].
Proof.
  split.
  - destruct (errno_reset_isolates (demo 0 0) 0 77
                ["suid-wrapper"; "ghost-user"; "/bin/true"]%string []
                (fun _ => Some 13) (fun _ => Some 22) (fun _ _ _ => Some 1)
                (fun _ _ _ => Some 9))
      as ((_ & Ht) & Hlookup & _).
    rewrite Ht.
    apply (Hlookup None); [simpl; lia | reflexivity].
  - apply (errno_reset_isolates (demo 0 0) 0 77
             ["suid-wrapper"; "alice"; "/nonexistent/binary"]%string []).
Defined.

(** ** Further properties of [main] *)

(** The empty text starts every text. *)
Lemma prefix_empty (s : string) : prefix "" s = true.
Proof. destruct s; reflexivity. Qed.

(** X1: the leading text of a diagnostic tells which check of [main]
    failed, whatever the user name, the program name and the texts of
    the system errors are: a line written by a run starts with [usage: ]
    exactly when there are fewer than three tokens, with [getpanam: ] or
    [getpwnam: ] exactly when the lookup found no entry and left a
    non-zero, respectively zero, [errno], with the root-disallowed text
    exactly when the entry has user id 0, with the grant, switch or
    [execvpe] text exactly when that call answered a negative code. *)
Theorem diagnostic_identifies_failure (P : platform) (e0 : Z)
    (argv envp : list string) (msg : string) :
  In (Stderr msg) (trace_of P e0 argv envp) ->
  (prefix "usage: " msg = true <-> (List.length argv <= 2)%nat) /\
  (prefix "getpanam: " msg = true <->
     In (Getpwnam (arg argv 1) None) (trace_of P e0 argv envp) /\
     errno_after 0 (snd (pf_getpwnam P (arg argv 1))) <> 0) /\
  (prefix "getpwnam: can not find user " msg = true <->
     In (Getpwnam (arg argv 1) None) (trace_of P e0 argv envp) /\
     errno_after 0 (snd (pf_getpwnam P (arg argv 1))) = 0) /\
  (prefix "can not run as root" msg = true <->
     exists pw,
       In (Getpwnam (arg argv 1) (Some pw)) (trace_of P e0 argv envp) /\
       pw_uid pw = 0%N) /\
  (prefix "capng_updatev() returns " msg = true <->
     exists a t v r,
       In (CapngUpdatev a t v r) (trace_of P e0 argv envp) /\ r < 0) /\
  (prefix "capng_change_id() returns " msg = true <->
     exists u g f r,
       In (CapngChangeId u g f r) (trace_of P e0 argv envp) /\ r < 0) /\
  (prefix "execvpe: " msg = true <->
     exists f a e r,
       In (Execvpe f a e (Some r)) (trace_of P e0 argv envp) /\ r < 0).
Proof.
  intros Hin.
  pose proof (main_path P e0 argv envp) as Hp.
  destruct Hp; in_trace.
  all: repeat match goal with
              | H : pf_getpwnam _ _ = _ |- _ => rewrite H; clear H
              end.
  all: repeat match goal with
              | |- _ /\ _ => split
              end.
  all: split; intros Hx.
  all: try solve [match type of Hx with
                  | prefix _ _ = true => cbv in Hx; discriminate Hx
                  end].
  all: try solve [lia].
  all: try solve [reflexivity].
  all: try solve [simpl; apply prefix_empty].
  all: try solve [simpl; auto 8].
  all: try solve [split; [simpl; auto 8 | simpl in *; congruence]].
  all: try solve [do 4 eexists; split; [simpl; eauto 10 | assumption]].
  all: try solve [eexists; split; [simpl; eauto 10 | assumption]].
  all: try solve [destruct Hx as [Hx _]; in_trace].
  all: try solve [destruct Hx as [_ Hx]; simpl in *; congruence].
  all: try solve [destruct Hx as (? & Hx & ?); in_trace; congruence].
  all: try solve [destruct Hx as (? & ? & ? & ? & Hx & ?); in_trace; lia].
Qed.

Lemma diagnostic_identifies_failure_witness :
  (prefix "getpanam: " ("getpanam: Input/output error" ++ newline) = true <->
     In (Getpwnam "broken" None)
        (trace_of (demo 0 0) 0 ["suid-wrapper"; "broken"; "/bin/true"]%string
                  []) /\
     errno_after 0 (snd (pf_getpwnam (demo 0 0) "broken")) <> 0) /\
  (prefix "usage: " ("getpanam: Input/output error" ++ newline) = true <->
     (3 <= 2)%nat).
Proof.
  destruct (diagnostic_identifies_failure (demo 0 0) 0
              ["suid-wrapper"; "broken"; "/bin/true"]%string []
              ("getpanam: Input/output error" ++ newline)%string)
    as (Husage & Hsys & _); [simpl; auto |].
  split; [exact Hsys | exact Husage].
Defined.

(** X2: a run that returns the failure status has written exactly one
    line to the standard error stream; a run that ends by the replacement
    of the image or returns the success status has written none.  No
    other status is ever returned: the codes of the library calls are
    printed, never returned. *)
Theorem one_diagnostic_per_failure (P : platform) (e0 : Z)
    (argv envp : list string) :
  (result_of P e0 argv envp = Returned EXIT_FAILURE /\
   List.length (filter is_stderr (trace_of P e0 argv envp)) = 1%nat) \/
  ((result_of P e0 argv envp = Replaced \/
    result_of P e0 argv envp = Returned EXIT_SUCCESS) /\
   filter is_stderr (trace_of P e0 argv envp) = []).
Proof.
  pose proof (main_path P e0 argv envp) as Hp.
  destruct Hp;
    first [ left; split; reflexivity
          | right; split; [auto | reflexivity] ].
Qed.

(** X3: the way a run ends is decided by the answer of the loader alone.
    The run returns the success status exactly when [execvpe] was called
    and returned a non-negative value, and it ends by the replacement of
    the image exactly when [execvpe] was called and did not return; in
    every other run the status is the failure status. *)
Theorem ending_follows_loader (P : platform) (e0 : Z)
    (argv envp : list string) :
  (result_of P e0 argv envp = Returned EXIT_SUCCESS <->
   exists f a e r,
     In (Execvpe f a e (Some r)) (trace_of P e0 argv envp) /\ 0 <= r) /\
  (result_of P e0 argv envp = Replaced <->
   exists f a e, In (Execvpe f a e None) (trace_of P e0 argv envp)) /\
  (result_of P e0 argv envp = Returned EXIT_FAILURE <->
   ~ (exists f a e, In (Execvpe f a e None) (trace_of P e0 argv envp)) /\
   ~ (exists f a e r,
        In (Execvpe f a e (Some r)) (trace_of P e0 argv envp) /\ 0 <= r)).
Proof.
  pose proof (main_path P e0 argv envp) as Hp.
  destruct Hp.
  all: split; [| split]; split; intros Hx.
  all: try discriminate Hx.
  all: try reflexivity.
  all: try solve [destruct Hx as (? & ? & ? & ? & Hx & ?); in_trace; lia].
  all: try solve [destruct Hx as (? & ? & ? & Hx); in_trace].
  all: try solve [do 4 eexists; split; [simpl; eauto 10 | assumption]].
  all: try solve [do 3 eexists; simpl; eauto 10].
  all: try solve [split; intros Hy;
                  [ destruct Hy as (? & ? & ? & Hy); in_trace
                  | destruct Hy as (? & ? & ? & ? & Hy & ?); in_trace; lia ]].
  all: exfalso; destruct Hx as [Hn Hm].
  - apply Hm. do 4 eexists. split; [simpl; eauto 10 | assumption].
  - apply Hn. do 3 eexists. simpl; eauto 10.
Qed.

(** X4: the lookup, the capability calls, the identity switch and every
    line written before the loader is called depend on the user name
    only.  Two invocations of at least three tokens that name the same
    user have the same trace up to the [execvpe] call, whatever the
    program name, the command, its arguments, the environment and the
    initial [errno] are. *)
Theorem transition_depends_on_user_only (P : platform) (e0 e0' : Z)
    (argv argv' envp envp' : list string) :
  (2 < List.length argv)%nat ->
  (2 < List.length argv')%nat ->
  arg argv 1 = arg argv' 1 ->
  until_exec (trace_of P e0 argv envp)
    = until_exec (trace_of P e0' argv' envp').
Proof.
  intros Hargc Hargc' Huser.
  pose proof (main_path P e0 argv envp) as Hp.
  pose proof (main_path P e0' argv' envp') as Hp'.
  destruct Hp; destruct Hp'; try lia.
  all: rewrite Huser in *; same_answers.
  all: try solve [lia | contradiction | simpl in *; congruence | reflexivity].
Qed.

Lemma transition_depends_on_user_only_witness :
  until_exec
    (trace_of (demo 0 0) 0 ["suid-wrapper"; "alice"; "/bin/echo"; "hi"]%string
              ["PATH=/bin"%string])
  = until_exec
      (trace_of (demo 0 0) 7 ["w"; "alice"; "/nonexistent/binary"]%string []).
Proof.
  apply (transition_depends_on_user_only (demo 0 0) 0 7
           ["suid-wrapper"; "alice"; "/bin/echo"; "hi"]%string
           ["w"; "alice"; "/nonexistent/binary"]%string
           ["PATH=/bin"%string] []);
    [simpl; lia | simpl; lia | reflexivity].
Defined.
